(** * ConnectorsView: the connectors settings page

    A shallow embedding of
    [airbyte-webapp/src/pages/SettingsPage/pages/ConnectorsPage/components/ConnectorsView.tsx].

    The component is a pure function from its props and the values of the
    hooks it calls to a React element tree.  The element tree is an
    inductive type; a JSX conditional [c && <X/>] evaluates to [false] when
    [c] is false, and React renders [false] and [null] as nothing. *)

From stdpp Require Import base strings list gmap.

Open Scope string_scope.
Set Warnings "-register-all".

(** ** Data model *)

(** The fields of [SourceDefinitionRead | DestinationDefinitionRead] that the
    component reads.  Optional fields ([?:] in the API client) are
    [option]s: an absent field reads as [undefined]. *)
Record ConnectorDefinition := {
  name : string;
  icon : option string;
  dockerRepository : string;
  dockerImageTag : string;
  latestDockerImageTag : option string;
  releaseStage : option string;
  documentationUrl : option string;
}.

(** [type: "sources" | "destinations"] *)
Inductive ConnectorType := sources | destinations.

(** [section: "used" | "available"] *)
Inductive SectionName := used | available.

(** [a === b] on section names. *)
Definition SectionName_eqb (a b : SectionName) : bool :=
  match a, b with
  | used, used | available, available => true
  | _, _ => false
  end.

(** The two members of [FeatureItem] the component asks for. *)
Inductive FeatureItem := AllowUpdateConnectors | AllowUploadCustomImage.

(** An element of react-table's [sortBy] array: [{ id, desc? }]. *)
Record SortingRule := {
  id : string;
  desc : option bool;
}.

(** What a cell renderer receives: [cell.value] and [row.original]. *)
Record CellProps := {
  cell_value : option string;
  row_original : ConnectorDefinition;
}.

(** A column descriptor.  [N] is the type of rendered nodes; [customWidth],
    [collapse] and [Cell] are absent on some of the columns. *)
Record Column (N : Type) := {
  Header : N;
  accessor : string;
  customWidth : option nat;
  collapse : option bool;
  Cell : option (CellProps -> N);
}.
Arguments Header {N} _.
Arguments accessor {N} _.
Arguments customWidth {N} _.
Arguments collapse {N} _.
Arguments Cell {N} _.

(** The collaborators the component imports: hooks, the [Connector] helpers
    of [core/domain/connector], and the effect type of the callbacks handed
    in by the caller (the component only passes callbacks on, it never
    calls them). *)
Class Collaborators := {
  Workspace : Type;
  Effect : Type;
  useFeature : FeatureItem -> bool;
  useCurrentWorkspace : Workspace;
  useAvailableConnectorDefinitions :
    list ConnectorDefinition -> Workspace -> list ConnectorDefinition;
  Connector_id : ConnectorDefinition -> string;
  Connector_hasNewerVersion : ConnectorDefinition -> bool;
}.

(** ** JavaScript operators on the value shapes that occur *)
Module JS.

(** [!!s] for [s : string | undefined]: the empty string and [undefined]
    are falsy. *)
Definition truthy (v : option string) : bool :=
  match v with
  | Some s => negb (bool_decide (s = ""))
  | None => false
  end.

(** [a || b] for [a : string | undefined] and [b : string]. *)
Definition or_string (a : option string) (b : string) : string :=
  match a with
  | Some s => if truthy a then s else b
  | None => b
  end.

(** [a || b] for [a?: boolean] and [b : boolean]. *)
Definition or_bool (a : option bool) (b : bool) : bool :=
  match a with
  | Some true => true
  | _ => b
  end.

(** [!!e] for [e?: Error]: an object is truthy, [undefined] is not. *)
Definition present {A} (e : option A) : bool :=
  match e with
  | Some _ => true
  | None => false
  end.

(** [x === "lit"] for [x : string | undefined]. *)
Definition strict_eq (x : option string) (lit : string) : bool :=
  bool_decide (x = Some lit).

End JS.

Section View.
Context `{Collaborators}.

(** ** Element trees *)
Inductive ReactNode :=
| JSFalse
| JSNull
| FormattedMessage (msg : string)
| HeadTitle (titles : list string)
| Fragment (children : list ReactNode)
| Div (className : string) (children : list ReactNode)
| Block (children : list ReactNode)
| Title (bold : bool) (children : list ReactNode)
| FormContentTitle (children : list ReactNode)
| Table (columns : list (Column ReactNode))
        (data : list ConnectorDefinition)
        (sortBy : list SortingRule)
| ConnectorCell (connectorName : option string) (img : option string)
                (hasUpdate : bool) (stage : option string)
| ImageCell (imageName : option string) (link : option string)
| VersionCell (version : string) (ident : string)
              (onChange : string -> string -> Effect)
              (feedback : option string) (currentVersion : string)
| CreateConnector (type : ConnectorType)
| UpgradeAllButton (isLoading hasError hasSuccess : bool)
                   (onUpdate : unit -> Effect).

(** [c && <X/>] in JSX. *)
Definition jsx_and (c : bool) (n : ReactNode) : ReactNode :=
  if c then n else JSFalse.

(** [interface ConnectorsViewProps].  An [Error] object is kept as its
    message; only its presence is ever looked at. *)
Record ConnectorsViewProps := {
  type : ConnectorType;
  isUpdateSuccess : bool;
  hasNewConnectorVersion : option bool;
  usedConnectorsDefinitions : list ConnectorDefinition;
  connectorsDefinitions : list ConnectorDefinition;
  loading : bool;
  error : option string;
  onUpdate : unit -> Effect;
  onUpdateVersion : string -> string -> Effect;
  feedbackList : gmap string string;
}.

(** ** The component *)

(** [const defaultSorting = [{ id: "name" }]] *)
Definition defaultSorting : list SortingRule :=
  [ {| id := "name"; desc := None |} ].

(** The two flags the component resolves on entry. *)
Definition allowUpdateConnectors : bool := useFeature AllowUpdateConnectors.
Definition allowUploadCustomImage : bool := useFeature AllowUploadCustomImage.

(** [showVersionUpdateColumn], with [definitions.some(...)] as [existsb]. *)
Definition showVersionUpdateColumn (definitions : list ConnectorDefinition) : bool :=
  if allowUpdateConnectors then true
  else if allowUploadCustomImage
            && existsb (fun definition => JS.strict_eq (releaseStage definition) "custom")
                       definitions
  then true
  else false.

Section WithProps.
Variable props : ConnectorsViewProps.

(** The props are destructured once and closed over by what follows. *)
Definition availableConnectorDefinitions : list ConnectorDefinition :=
  useAvailableConnectorDefinitions (connectorsDefinitions props) useCurrentWorkspace.

(** [renderColumns]: three fixed columns, then the spread of the optional
    fourth. *)
Definition renderColumns (showVersionUpdateColumn : bool) : list (Column ReactNode) :=
  [ {| Header := FormattedMessage "admin.connectors";
       accessor := "name";
       customWidth := Some 25;
       collapse := None;
       Cell := Some (fun p =>
         ConnectorCell
           (cell_value p)
           (icon (row_original p))
           (allowUpdateConnectors && Connector_hasNewerVersion (row_original p))
           (releaseStage (row_original p))) |};
    {| Header := FormattedMessage "admin.image";
       accessor := "dockerRepository";
       customWidth := Some 36;
       collapse := None;
       Cell := Some (fun p =>
         ImageCell (cell_value p) (documentationUrl (row_original p))) |};
    {| Header := FormattedMessage "admin.currentVersion";
       accessor := "dockerImageTag";
       customWidth := Some 10;
       collapse := None;
       Cell := None |} ]
  ++ (if showVersionUpdateColumn
      then
        [ {| Header := FormContentTitle [FormattedMessage "admin.changeTo"];
             accessor := "latestDockerImageTag";
             customWidth := None;
             collapse := Some true;
             Cell := Some (fun p =>
               if allowUpdateConnectors
                  || (allowUploadCustomImage
                      && JS.strict_eq (releaseStage (row_original p)) "custom")
               then
                 VersionCell
                   (JS.or_string (cell_value p) (dockerImageTag (row_original p)))
                   (Connector_id (row_original p))
                   (onUpdateVersion props)
                   (feedbackList props !! Connector_id (row_original p))
                   (dockerImageTag (row_original p))
               else JSNull) |} ]
      else []).

(** [renderHeaderControls]; [styles.buttonsContainer] is the class name of
    the container. *)
Definition renderHeaderControls (section : SectionName) : ReactNode :=
  jsx_and
    ((SectionName_eqb section used
        && (0 <? length (usedConnectorsDefinitions props))%nat)
     || (SectionName_eqb section available
           && (length (usedConnectorsDefinitions props) =? 0)%nat))
    (Div "buttonsContainer"
       [ jsx_and allowUploadCustomImage (CreateConnector (type props));
         jsx_and
           (JS.or_bool (hasNewConnectorVersion props) (isUpdateSuccess props)
              && allowUpdateConnectors)
           (UpgradeAllButton
              (loading props)
              (JS.present (error props) && negb (loading props))
              (isUpdateSuccess props)
              (onUpdate props)) ]).

(** The returned fragment: page title, used block, available block. *)
Definition ConnectorsView : ReactNode :=
  Fragment
    [ HeadTitle
        [ "sidebar.settings";
          match type props with
          | sources => "admin.sources"
          | destinations => "admin.destinations"
          end ];
      jsx_and
        (0 <? length (usedConnectorsDefinitions props))%nat
        (Block
           [ Title true
               [ FormattedMessage
                   match type props with
                   | sources => "admin.manageSource"
                   | destinations => "admin.manageDestination"
                   end;
                 renderHeaderControls used ];
             Table
               (renderColumns (showVersionUpdateColumn (usedConnectorsDefinitions props)))
               (usedConnectorsDefinitions props)
               defaultSorting ]);
      Block
        [ Title true
            [ FormattedMessage
                match type props with
                | sources => "admin.availableSource"
                | destinations => "admin.availableDestinations"
                end;
              renderHeaderControls available ];
          Table
            (renderColumns (showVersionUpdateColumn availableConnectorDefinitions))
            availableConnectorDefinitions
            defaultSorting ] ].

End WithProps.

(** ** Reading an element tree *)

(** React renders [false] and [null] as nothing. *)
Definition rendersNothing (n : ReactNode) : bool :=
  match n with
  | JSFalse | JSNull => true
  | _ => false
  end.

Definition renders (n : ReactNode) : bool := negb (rendersNothing n).

(** All the places of a tree where [pick] answers, in document order.  The
    header of every column of a table is part of the tree; the cells are
    functions of the row and are read through [cellRenderer] below. *)
Fixpoint collect {A} (pick : ReactNode -> option A) (n : ReactNode) : list A :=
  match pick n with
  | Some a => [a]
  | None => []
  end ++
  match n with
  | Fragment cs | Div _ cs | Block cs | Title _ cs | FormContentTitle cs =>
      flat_map (collect pick) cs
  | Table cols _ _ => flat_map (fun c => collect pick (Header c)) cols
  | _ => []
  end.

Definition occurs (test : ReactNode -> bool) (n : ReactNode) : bool :=
  match collect (fun m => if test m then Some tt else None) n with
  | [] => false
  | _ :: _ => true
  end.

Definition isCreateConnector (n : ReactNode) : bool :=
  match n with
  | CreateConnector _ => true
  | _ => false
  end.

Definition isUpgradeAllButton (n : ReactNode) : bool :=
  match n with
  | UpgradeAllButton _ _ _ _ => true
  | _ => false
  end.

Definition isVersionCell (n : ReactNode) : bool :=
  match n with
  | VersionCell _ _ _ _ _ => true
  | _ => false
  end.

Definition isNull (n : ReactNode) : bool :=
  match n with
  | JSNull => true
  | _ => false
  end.

(** The [className] of a container, used to recognise the header controls. *)
Definition isButtonsContainer (n : ReactNode) : bool :=
  match n with
  | Div cls _ => bool_decide (cls = "buttonsContainer")
  | _ => false
  end.

(** The [hasError] prop of a bulk-upgrade button. *)
Definition hasErrorOf (n : ReactNode) : option bool :=
  match n with
  | UpgradeAllButton _ e _ _ => Some e
  | _ => None
  end.

(** The [version] prop of a version cell. *)
Definition versionOf (n : ReactNode) : option string :=
  match n with
  | VersionCell v _ _ _ _ => Some v
  | _ => None
  end.

(** The [data] and [sortBy] props of a table. *)
Definition tableOf (n : ReactNode) : option (list ConnectorDefinition * list SortingRule) :=
  match n with
  | Table _ d s => Some (d, s)
  | _ => None
  end.

(** The [columns] prop of a table. *)
Definition columnsOf (n : ReactNode) : option (list (Column ReactNode)) :=
  match n with
  | Table cols _ _ => Some cols
  | _ => None
  end.

(** The children of the page fragment that React puts on screen. *)
Definition renderedChildren (n : ReactNode) : list ReactNode :=
  match n with
  | Fragment cs => List.filter renders cs
  | _ => []
  end.

(** The message id of the title of a block. *)
Definition blockTitle (n : ReactNode) : option string :=
  match n with
  | Block (Title _ (FormattedMessage m :: _) :: _) => Some m
  | _ => None
  end.

(** Whether the title of a block carries rendered header controls. *)
Definition blockHasControls (n : ReactNode) : bool :=
  match n with
  | Block (Title _ cs :: _) => existsb isButtonsContainer cs
  | _ => false
  end.

(** The rows handed to the table of a block. *)
Definition blockData (n : ReactNode) : option (list ConnectorDefinition) :=
  match n with
  | Block [_; Table _ d _] => Some d
  | _ => None
  end.

Definition isBlock (n : ReactNode) : bool :=
  match n with
  | Block _ => true
  | _ => false
  end.

(** The blocks of the page that are on screen, top to bottom. *)
Definition blocks (page : ReactNode) : list ReactNode :=
  List.filter isBlock (renderedChildren page).

(** ** The table renderer's side of the column contract *)

(** Modelled from the spec: the generic table renderer ([components/ui/Table],
    built on react-table) is not part of the sources; section 4.1 of the
    spec says each column descriptor carries "a data accessor key", and the
    renderer hands each cell the field of the row stored under that key. *)
Definition accessorValue (key : string) (d : ConnectorDefinition) : option string :=
  if bool_decide (key = "name") then Some (name d)
  else if bool_decide (key = "icon") then icon d
  else if bool_decide (key = "dockerRepository") then Some (dockerRepository d)
  else if bool_decide (key = "dockerImageTag") then Some (dockerImageTag d)
  else if bool_decide (key = "latestDockerImageTag") then latestDockerImageTag d
  else if bool_decide (key = "releaseStage") then releaseStage d
  else if bool_decide (key = "documentationUrl") then documentationUrl d
  else None.

(** Modelled from the spec: the props the table renderer passes to the cell
    of row [d] in the column whose accessor is [key]. *)
Definition cellPropsFor (key : string) (d : ConnectorDefinition) : CellProps :=
  {| cell_value := accessorValue key d; row_original := d |}.

(** The cell function of the column with accessor [key], if the column is
    there and has one. *)
Definition cellRenderer (key : string) (cols : list (Column ReactNode))
  : option (CellProps -> ReactNode) :=
  match List.find (fun c => bool_decide (accessor c = key)) cols with
  | Some c => Cell c
  | None => None
  end.

(** The per-row gate of the change-version cell. *)
Definition canChangeVersion (d : ConnectorDefinition) : bool :=
  allowUpdateConnectors
  || (allowUploadCustomImage && bool_decide (releaseStage d = Some "custom")).

(** Modelled from the spec: the cell the table renderer shows for row [d]
    in the column with accessor [key], that is the column's cell function
    applied to the props the renderer builds for that row ([cellPropsFor]).  [None] when the column is absent
    or leaves the cell to the renderer's default. *)
Definition cellOf (key : string) (cols : list (Column ReactNode))
    (d : ConnectorDefinition) : option ReactNode :=
  match cellRenderer key cols with
  | Some f => Some (f (cellPropsFor key d))
  | None => None
  end.

(** The [hasUpdate] prop of a connector cell. *)
Definition hasUpdateOf (n : ReactNode) : option bool :=
  match n with
  | ConnectorCell _ _ u _ => Some u
  | _ => None
  end.


(** The [version] and [currentVersion] props of a version cell. *)
Definition versionPairOf (n : ReactNode) : option (string * string) :=
  match n with
  | VersionCell v _ _ _ cur => Some (v, cur)
  | _ => None
  end.

(** The [isLoading], [hasError] and [hasSuccess] props of a bulk-upgrade
    button. *)
Definition upgradePropsOf (n : ReactNode) : option (bool * bool * bool) :=
  match n with
  | UpgradeAllButton l e s _ => Some (l, e, s)
  | _ => None
  end.

(** The children of a header-controls container that React puts on
    screen. *)
Definition controlsOf (n : ReactNode) : option (list ReactNode) :=
  match n with
  | Div cls cs =>
      if bool_decide (cls = "buttonsContainer")
      then Some (List.filter renders cs)
      else None
  | _ => None
  end.


End View.

(** ** Sample collaborators and inputs *)

(** Hooks with the two feature flags set as given, the workspace filter
    letting every definition through, and callbacks that describe their call. *)
Definition sampleHooks (update upload : bool) : Collaborators := {|
  Workspace := unit;
  Effect := string;
  useFeature := fun f =>
    match f with
    | AllowUpdateConnectors => update
    | AllowUploadCustomImage => upload
    end;
  useCurrentWorkspace := tt;
  useAvailableConnectorDefinitions := fun defs _ => defs;
  Connector_id := name;
  Connector_hasNewerVersion := fun d =>
    match latestDockerImageTag d with
    | Some l => negb (String.eqb l (dockerImageTag d))
    | None => false
    end;
|}.

Definition customDefinition : ConnectorDefinition := {|
  name := "My Source";
  icon := None;
  dockerRepository := "acme/source-mine";
  dockerImageTag := "0.1.0";
  latestDockerImageTag := None;
  releaseStage := Some "custom";
  documentationUrl := None;
|}.

Definition catalogDefinition : ConnectorDefinition := {|
  name := "Postgres";
  icon := Some "postgres.svg";
  dockerRepository := "airbyte/source-postgres";
  dockerImageTag := "1.0.2";
  latestDockerImageTag := Some "1.0.5";
  releaseStage := Some "generally_available";
  documentationUrl := Some "https://docs.airbyte.io/integrations/sources/postgres";
|}.

Definition emptyTagDefinition : ConnectorDefinition := {|
  name := "Files";
  icon := None;
  dockerRepository := "airbyte/source-file";
  dockerImageTag := "0.2.9";
  latestDockerImageTag := Some "";
  releaseStage := Some "beta";
  documentationUrl := None;
|}.

Definition sampleProps (update upload : bool)
    (usedDefs allDefs : list ConnectorDefinition)
    (newer : option bool) (success busy : bool) (err : option string)
  : @ConnectorsViewProps (sampleHooks update upload) :=
  @Build_ConnectorsViewProps (sampleHooks update upload)
    sources success newer usedDefs allDefs busy err
    (fun _ => "update all")
    (fun i v => "update " +:+ i +:+ " to " +:+ v)
    {[ "Postgres" := "success" ]}.

(** ** Properties *)

Section Properties.
Context `{Collaborators}.
Implicit Types (props : ConnectorsViewProps) (d : ConnectorDefinition).

Lemma some_custom_iff (defs : list ConnectorDefinition) :
  existsb (fun definition => JS.strict_eq (releaseStage definition) "custom") defs = true
  <-> exists d, d ∈ defs /\ releaseStage d = Some "custom".
Proof.
  rewrite existsb_exists. split.
  - intros (d & Hin & Hd). exists d. split.
    + by apply list_elem_of_In.
    + by apply bool_decide_eq_true in Hd.
  - intros (d & Hin & Hd). exists d. split.
    + by apply list_elem_of_In.
    + by apply bool_decide_eq_true.
Qed.

(** C1: the upgrade-column policy answers true exactly when connector
    updates are allowed, or custom images may be uploaded and some
    definition of the list has release stage "custom"; in every other case
    it answers false. *)
Theorem showVersionUpdateColumn_policy (defs : list ConnectorDefinition) :
  showVersionUpdateColumn defs = true
  <-> allowUpdateConnectors = true
      \/ (allowUploadCustomImage = true
          /\ exists d, d ∈ defs /\ releaseStage d = Some "custom").
Proof.
  unfold showVersionUpdateColumn.
  destruct allowUpdateConnectors; [ intuition | ].
  destruct allowUploadCustomImage; simpl.
  - destruct (existsb _ defs) eqn:E.
    + apply some_custom_iff in E. intuition.
    + split; [ done | ].
      intros [ ? | [_ Hex] ]; [ done | ].
      apply some_custom_iff in Hex. congruence.
  - split; [ done | ]. intros [ ? | [? _] ]; done.
Qed.

(** Unfold the component down to its flags and case on them. *)
Ltac unfold_view :=
  unfold ConnectorsView, renderHeaderControls, availableConnectorDefinitions,
    jsx_and, defaultSorting.

Ltac flag_cases :=
  repeat match goal with
  | |- context [ allowUpdateConnectors ] => destruct allowUpdateConnectors
  | |- context [ allowUploadCustomImage ] => destruct allowUploadCustomImage
  | |- context [ JS.or_bool ?a ?b ] => destruct (JS.or_bool a b)
  end.

(** Evaluate the page for an empty and for a non-empty used list. *)
Ltac page_cases props :=
  unfold_view; destruct (usedConnectorsDefinitions props); simpl;
  flag_cases;
  repeat match goal with
  | |- context [ showVersionUpdateColumn ?l ] => destruct (showVersionUpdateColumn l)
  end; simpl.

(** C2: whatever the flag, the columns are name, image and current version,
    in that order; a fourth column, "change version" with accessor
    [latestDockerImageTag], follows exactly when the flag is true. *)
Theorem renderColumns_layout props (b : bool) :
  map (fun c => (Header c, accessor c)) (renderColumns props b)
  = ([ (FormattedMessage "admin.connectors", "name");
       (FormattedMessage "admin.image", "dockerRepository");
       (FormattedMessage "admin.currentVersion", "dockerImageTag") ]
     ++ (if b
         then [ (FormContentTitle [FormattedMessage "admin.changeTo"],
                 "latestDockerImageTag") ]
         else []))%list
  /\ ((exists c, c ∈ renderColumns props b /\ accessor c = "latestDockerImageTag")
      <-> b = true).
Proof.
  split.
  - by destruct b.
  - split.
    + intros (c & Hin & Hacc). destruct b; [ done | ].
      unfold renderColumns in Hin. simpl in Hin. rewrite !elem_of_cons, elem_of_nil in Hin.
      destruct Hin as [ -> | [ -> | [ -> | [] ] ] ]; done.
    + intros ->. eexists. split.
      * apply list_elem_of_lookup. by exists 3.
      * done.
Qed.

(** X4: the page hands each table the columns built for the policy's answer
    on that table's own list: the used table for the used list, the
    available table for the available list. *)
Lemma page_table_columns props :
  collect columnsOf (ConnectorsView props)
  = (match usedConnectorsDefinitions props with
     | [] => []
     | _ :: _ =>
         [ renderColumns props (showVersionUpdateColumn (usedConnectorsDefinitions props)) ]
     end
     ++ [ renderColumns props
            (showVersionUpdateColumn (availableConnectorDefinitions props)) ])%list.
Proof.
  page_cases props; reflexivity.
Qed.

(** C3: the cell of the "change version" column is a [VersionCell] when
    updates are allowed, or custom uploads are allowed and the row's release
    stage is "custom"; in every other case it is [null]. *)
Theorem changeVersion_cell_gate props (p : CellProps) :
  exists f,
    cellRenderer "latestDockerImageTag" (renderColumns props true) = Some f
    /\ isVersionCell (f p) = canChangeVersion (row_original p)
    /\ isNull (f p) = negb (canChangeVersion (row_original p)).
Proof.
  eexists. split; [ reflexivity | ].
  unfold canChangeVersion, JS.strict_eq. simpl.
  by destruct (_ || _).
Qed.

(** C4: the header controls of the "used" section render exactly when the
    used list is non-empty, those of the "available" section exactly when it
    is empty; so exactly one of the two sections carries them. *)
Theorem renderHeaderControls_section props :
  (renders (renderHeaderControls props used) = true
     <-> usedConnectorsDefinitions props <> [])
  /\ (renders (renderHeaderControls props available) = true
     <-> usedConnectorsDefinitions props = [])
  /\ renders (renderHeaderControls props used)
     = negb (renders (renderHeaderControls props available)).
Proof.
  unfold renderHeaderControls, jsx_and, renders.
  destruct (usedConnectorsDefinitions props); simpl; intuition congruence.
Qed.

(** On the page, the controls sit in the first block on screen and in no
    other. *)
Lemma page_controls_once props :
  map blockHasControls (blocks (ConnectorsView props))
  = match usedConnectorsDefinitions props with
    | [] => [true]
    | _ :: _ => [true; false]
    end.
Proof.
  unfold_view. by destruct (usedConnectorsDefinitions props).
Qed.

Lemma or_bool_true (a : option bool) (b : bool) :
  JS.or_bool a b = true <-> a = Some true \/ b = true.
Proof. destruct a as [ [] | ], b; simpl; intuition congruence. Qed.

Lemma or_bool_decide (a : option bool) (b : bool) :
  JS.or_bool a b = bool_decide (a = Some true) || b.
Proof. by destruct a as [ [] | ], b. Qed.

(** C5: the "create connector" control is on the page exactly when custom
    image uploads are allowed, and in a section's header controls only when
    they are; with uploads disallowed it is nowhere, whatever the lists and
    the other flags. *)
Theorem createConnector_gate props :
  occurs isCreateConnector (ConnectorsView props) = allowUploadCustomImage
  /\ forall section,
       occurs isCreateConnector (renderHeaderControls props section)
       = renders (renderHeaderControls props section) && allowUploadCustomImage.
Proof.
  split.
  - page_cases props; reflexivity.
  - intros section. unfold renderHeaderControls, jsx_and, renders.
    destruct section, (usedConnectorsDefinitions props); simpl;
      flag_cases; reflexivity.
Qed.

Lemma page_upgrade_occurs props :
  occurs isUpgradeAllButton (ConnectorsView props)
  = JS.or_bool (hasNewConnectorVersion props) (isUpdateSuccess props)
    && allowUpdateConnectors.
Proof. page_cases props; reflexivity. Qed.

(** C6: the "bulk upgrade" control is on the page exactly when a new
    connector version exists or the last bulk update succeeded, and
    connector updates are allowed. *)
Theorem upgradeAll_gate props :
  occurs isUpgradeAllButton (ConnectorsView props) = true
  <-> (hasNewConnectorVersion props = Some true \/ isUpdateSuccess props = true)
      /\ allowUpdateConnectors = true.
Proof.
  rewrite page_upgrade_occurs, andb_true_iff, or_bool_true. reflexivity.
Qed.

(** With no new version and no earlier success the control is absent, even
    when connector updates are allowed. *)
Lemma upgradeAll_absent props :
  hasNewConnectorVersion props <> Some true ->
  isUpdateSuccess props = false ->
  occurs isUpgradeAllButton (ConnectorsView props) = false.
Proof.
  intros Hnew Hok. rewrite page_upgrade_occurs.
  destruct (JS.or_bool _ _) eqn:E; [ | done ].
  apply or_bool_true in E as [ ? | ? ]; congruence.
Qed.

(** C7: the page shows the "manage used connectors" block exactly when the
    used list is non-empty, and always the "manage available connectors"
    block, which comes after the used one. *)
Theorem page_composition props :
  map (fun b => (blockTitle b, blockData b)) (blocks (ConnectorsView props))
  = (match usedConnectorsDefinitions props with
     | [] => []
     | _ :: _ =>
         [ (Some match type props with
                 | sources => "admin.manageSource"
                 | destinations => "admin.manageDestination"
                 end,
            Some (usedConnectorsDefinitions props)) ]
     end
     ++ [ (Some match type props with
                | sources => "admin.availableSource"
                | destinations => "admin.availableDestinations"
                end,
           Some (availableConnectorDefinitions props)) ])%list.
Proof.
  unfold_view. by destruct (usedConnectorsDefinitions props).
Qed.

(** C8: every table of the page, the used one and the available one, gets
    the same default sorting, by [name] with no descending flag. *)
Theorem tables_default_sorting props :
  collect tableOf (ConnectorsView props)
  = (match usedConnectorsDefinitions props with
     | [] => []
     | _ :: _ =>
         [ (usedConnectorsDefinitions props, [ {| id := "name"; desc := None |} ]) ]
     end
     ++ [ (availableConnectorDefinitions props,
           [ {| id := "name"; desc := None |} ]) ])%list.
Proof. page_cases props; reflexivity. Qed.

(** C9: the bulk-upgrade button, whenever it is on the page, is told of an
    error exactly when an error is present and no load is in progress. *)
Theorem upgradeAll_hasError props :
  collect hasErrorOf (ConnectorsView props)
  = if (bool_decide (hasNewConnectorVersion props = Some true) || isUpdateSuccess props)
       && allowUpdateConnectors
    then [ bool_decide (error props <> None /\ loading props = false) ]
    else [].
Proof.
  rewrite <- or_bool_decide.
  assert (JS.present (error props) && negb (loading props)
          = bool_decide (error props <> None /\ loading props = false)) as <-.
  { by destruct (error props), (loading props). }
  page_cases props; reflexivity.
Qed.

(** C10: a version cell shows the row's latest image tag, and falls back to
    the row's current image tag when the latest tag is absent or empty. *)
Theorem changeVersion_cell_version props :
  exists f,
    cellRenderer "latestDockerImageTag" (renderColumns props true) = Some f
    /\ forall d,
         versionOf (f (cellPropsFor "latestDockerImageTag" d))
         = if canChangeVersion d
           then Some match latestDockerImageTag d with
                     | None | Some "" => dockerImageTag d
                     | Some latest => latest
                     end
           else None.
Proof.
  eexists. split; [ reflexivity | ].
  intros d. unfold canChangeVersion, JS.strict_eq. simpl.
  destruct (_ || _); [ | reflexivity ].
  simpl. unfold cellPropsFor, accessorValue. simpl.
  by destruct (latestDockerImageTag d) as [ [ | ] | ].
Qed.

End Properties.

(** ** Further behaviour of the component *)

Section Behaviour.
Context `{Collaborators}.
Implicit Types (props : ConnectorsViewProps) (d : ConnectorDefinition).

(** Evaluate the page: case on the used list, then on every flag. *)
Ltac view_cases props :=
  unfold ConnectorsView, renderHeaderControls, availableConnectorDefinitions,
    jsx_and, defaultSorting;
  destruct (usedConnectorsDefinitions props); simpl;
  repeat match goal with
  | |- context [ allowUpdateConnectors ] => destruct allowUpdateConnectors
  | |- context [ allowUploadCustomImage ] => destruct allowUploadCustomImage
  | |- context [ JS.or_bool ?a ?b ] => destruct (JS.or_bool a b)
  | |- context [ showVersionUpdateColumn ?l ] => destruct (showVersionUpdateColumn l)
  end; simpl.

Lemma existsb_pointwise {A} (f g : A -> bool) (l : list A) :
  (forall x, f x = g x) -> existsb f l = existsb g l.
Proof.
  intros Hfg. induction l as [ | x l IH ]; simpl; [ done | ].
  by rewrite Hfg, IH.
Qed.

(** X1: the policy of two lists put together is the disjunction of their
    policies. *)
Theorem showVersionUpdateColumn_app (l1 l2 : list ConnectorDefinition) :
  showVersionUpdateColumn (l1 ++ l2)
  = showVersionUpdateColumn l1 || showVersionUpdateColumn l2.
Proof.
  unfold showVersionUpdateColumn. rewrite existsb_app.
  destruct allowUpdateConnectors; [ done | ].
  destruct allowUploadCustomImage; simpl; [ | done ].
  by destruct (existsb _ l1), (existsb _ l2).
Qed.

(** X2: the policy only grows with the list: when it shows the column for a
    list, it shows it for every list holding the same definitions and
    more, in any order. *)
Theorem showVersionUpdateColumn_mono (l1 l2 : list ConnectorDefinition) :
  l1 ⊆ l2 ->
  showVersionUpdateColumn l1 = true ->
  showVersionUpdateColumn l2 = true.
Proof.
  unfold showVersionUpdateColumn. intros Hsub.
  destruct allowUpdateConnectors; [ done | ].
  destruct allowUploadCustomImage; simpl; [ | done ].
  destruct (existsb _ l1) eqn:E1; [ intros _ | done ].
  apply some_custom_iff in E1 as (d & Hin & Hd).
  assert (existsb (fun definition => JS.strict_eq (releaseStage definition) "custom") l2
          = true) as ->; [ | done ].
  apply some_custom_iff. exists d. split; [ by apply Hsub | done ].
Qed.

(** X3: the column is shown for a list exactly when updates are allowed
    globally or the cell of at least one row of the list is a version
    cell; so without the global flag the column never appears with all its
    cells empty. *)
Theorem column_iff_some_cell props (defs : list ConnectorDefinition) :
  showVersionUpdateColumn defs
  = allowUpdateConnectors
    || existsb
         (fun d =>
            match cellOf "latestDockerImageTag" (renderColumns props true) d with
            | Some n => isVersionCell n
            | None => false
            end)
         defs.
Proof.
  unfold showVersionUpdateColumn.
  destruct allowUpdateConnectors eqn:Eu; [ done | ].
  rewrite orb_false_l.
  destruct allowUploadCustomImage eqn:El; rewrite ?andb_true_l, ?andb_false_l.
  - transitivity
      (existsb (fun definition => JS.strict_eq (releaseStage definition) "custom") defs).
    + by destruct (existsb _ defs).
    + apply existsb_pointwise. intros d. unfold cellOf. simpl.
      rewrite Eu, El. simpl. by destruct (JS.strict_eq _ _).
  - transitivity (existsb (fun _ : ConnectorDefinition => false) defs).
    + by induction defs.
    + apply existsb_pointwise. intros d. unfold cellOf. simpl.
      by rewrite Eu, El.
Qed.

(** X5: whether the optional column is there or not, the name cell of a row
    shows the row's name, icon and release stage and flags an update
    exactly when connector updates are allowed and the row has a newer
    version; the image cell shows the row's docker repository and links to
    its documentation URL. *)
Theorem fixed_cells props (b : bool) d :
  cellOf "name" (renderColumns props b) d
  = Some (ConnectorCell (Some (name d)) (icon d)
            (allowUpdateConnectors && Connector_hasNewerVersion d)
            (releaseStage d))
  /\ cellOf "dockerRepository" (renderColumns props b) d
     = Some (ImageCell (Some (dockerRepository d)) (documentationUrl d))
  /\ cellOf "dockerImageTag" (renderColumns props b) d = None.
Proof. by destruct b. Qed.

(** X6: a row whose name cell flags an update always has its version cell:
    the change-version column is shown for every list, and the row's cell
    in it is a version cell. *)
Theorem update_flag_has_control props (b : bool) d (defs : list ConnectorDefinition) :
  hasUpdateOf <$> cellOf "name" (renderColumns props b) d = Some (Some true) ->
  showVersionUpdateColumn defs = true
  /\ isVersionCell <$> cellOf "latestDockerImageTag" (renderColumns props true) d
     = Some true.
Proof.
  intros Hflag.
  assert (allowUpdateConnectors = true) as Eu.
  { destruct b; unfold cellOf in Hflag; simpl in Hflag;
      by destruct allowUpdateConnectors. }
  unfold showVersionUpdateColumn, cellOf. simpl. by rewrite Eu.
Qed.


(** X8: a version cell shows a version other than the row's current one
    only when the row has a non-empty latest tag that differs from its
    current tag. *)
Theorem pending_version props d (v cur : string) :
  versionPairOf <$> cellOf "latestDockerImageTag" (renderColumns props true) d
  = Some (Some (v, cur)) ->
  cur = dockerImageTag d
  /\ (v <> cur
      <-> exists l, latestDockerImageTag d = Some l /\ l <> "" /\ l <> dockerImageTag d).
Proof.
  unfold cellOf. simpl. destruct (_ || _); simpl; [ | done ].
  unfold JS.or_string, accessorValue. simpl.
  destruct (latestDockerImageTag d) as [ l | ] eqn:El; simpl.
  - case_bool_decide as Hl; simpl; intros [= <- <-]; (split; [ done | ]).
    + split; [ done | ]. intros (l' & [= <-] & Hne & _). done.
    + split.
      * intros Hv. exists l. done.
      * intros (l' & [= <-] & _ & Hne). done.
  - intros [= <- <-]. split; [ done | ].
    split; [ done | ]. intros (l' & [=] & _).
Qed.

(** X9: every bulk-upgrade button on the page is given the caller's
    loading and success flags as they are, and is never told of a load in
    progress and of an error at once. *)
Theorem upgradeAll_props props :
  Forall (fun p => p.1.1 = loading props
                   /\ p.2 = isUpdateSuccess props
                   /\ p.1.1 && p.1.2 = false)
         (collect upgradePropsOf (ConnectorsView props)).
Proof.
  view_cases props; repeat constructor; simpl;
    by destruct (loading props), (error props).
Qed.

(** X10: the page has exactly one header-controls container, also when no
    control is allowed; inside it the create-connector control, typed like
    the page, comes before the bulk-upgrade button. *)
Theorem page_controls props :
  collect controlsOf (ConnectorsView props)
  = [ ((if allowUploadCustomImage then [ CreateConnector (type props) ] else [])
       ++ (if JS.or_bool (hasNewConnectorVersion props) (isUpdateSuccess props)
              && allowUpdateConnectors
           then [ UpgradeAllButton (loading props)
                    (JS.present (error props) && negb (loading props))
                    (isUpdateSuccess props) (onUpdate props) ]
           else []))%list ].
Proof. view_cases props; reflexivity. Qed.

(** X11: with connector updates allowed every table of the page has all
    four columns, whatever its rows, an empty table included. *)
Theorem all_columns_when_updates_allowed props :
  allowUpdateConnectors = true ->
  map (map accessor) (collect columnsOf (ConnectorsView props))
  = replicate
      (match usedConnectorsDefinitions props with [] => 1 | _ :: _ => 2 end)
      [ "name"; "dockerRepository"; "dockerImageTag"; "latestDockerImageTag" ].
Proof.
  intros Eu. unfold ConnectorsView, showVersionUpdateColumn. rewrite Eu.
  unfold jsx_and, renderHeaderControls.
  destruct (usedConnectorsDefinitions props); simpl; rewrite ?Eu;
    destruct allowUploadCustomImage, (JS.or_bool _ _); reflexivity.
Qed.

(** X12: with neither capability no version control is reachable: every
    table has the three fixed columns only, and a change-version cell,
    were it asked for, would be empty for every row. *)
Theorem no_version_control_without_capability props :
  allowUpdateConnectors = false ->
  allowUploadCustomImage = false ->
  map (map accessor) (collect columnsOf (ConnectorsView props))
  = replicate
      (match usedConnectorsDefinitions props with [] => 1 | _ :: _ => 2 end)
      [ "name"; "dockerRepository"; "dockerImageTag" ]
  /\ forall d,
       cellOf "latestDockerImageTag" (renderColumns props true) d = Some JSNull.
Proof.
  intros Eu El. split.
  - unfold ConnectorsView, showVersionUpdateColumn. rewrite Eu, El.
    unfold jsx_and, renderHeaderControls.
    destruct (usedConnectorsDefinitions props); simpl; rewrite ?Eu, ?El;
      destruct (JS.or_bool _ _); reflexivity.
  - intros d. unfold cellOf. simpl. by rewrite Eu, El.
Qed.


End Behaviour.

(** The hypotheses of the statements above, met on sample inputs. *)

Lemma showVersionUpdateColumn_mono_witness :
  [customDefinition] ⊆ [catalogDefinition; customDefinition]
  /\ @showVersionUpdateColumn (sampleHooks false true) [customDefinition] = true
  /\ @showVersionUpdateColumn (sampleHooks false true)
       [catalogDefinition; customDefinition] = true.
Proof.
  assert ([customDefinition] ⊆ [catalogDefinition; customDefinition]) as Hsub.
  { intros x Hx. apply elem_of_cons in Hx as [ -> | Hx ].
    - apply elem_of_cons. right. apply elem_of_cons. by left.
    - by apply elem_of_nil in Hx. }
  split; [ exact Hsub | ].
  split; [ reflexivity | ].
  apply (@showVersionUpdateColumn_mono (sampleHooks false true)
           [customDefinition] [catalogDefinition; customDefinition] Hsub).
  reflexivity.
Defined.

Lemma update_flag_has_control_witness :
  hasUpdateOf
    <$> cellOf "name"
          (renderColumns
             (sampleProps true false [catalogDefinition] [] None false false None)
             false)
          catalogDefinition
  = Some (Some true)
  /\ (@showVersionUpdateColumn (sampleHooks true false) [] = true
      /\ isVersionCell
           <$> cellOf "latestDockerImageTag"
                 (renderColumns
                    (sampleProps true false [catalogDefinition] [] None false false None)
                    true)
                 catalogDefinition
         = Some true).
Proof.
  split; [ reflexivity | ].
  apply (@update_flag_has_control (sampleHooks true false)
           (sampleProps true false [catalogDefinition] [] None false false None)
           false catalogDefinition []).
  reflexivity.
Defined.

Lemma pending_version_witness :
  versionPairOf
    <$> cellOf "latestDockerImageTag"
          (renderColumns
             (sampleProps true false [catalogDefinition] [] None false false None)
             true)
          catalogDefinition
  = Some (Some ("1.0.5", "1.0.2"))
  /\ ("1.0.2" = dockerImageTag catalogDefinition
      /\ ("1.0.5" <> "1.0.2"
          <-> exists l, latestDockerImageTag catalogDefinition = Some l
                        /\ l <> "" /\ l <> dockerImageTag catalogDefinition)).
Proof.
  split; [ reflexivity | ].
  apply (@pending_version (sampleHooks true false)
           (sampleProps true false [catalogDefinition] [] None false false None)
           catalogDefinition "1.0.5" "1.0.2").
  reflexivity.
Defined.

Lemma all_columns_when_updates_allowed_witness :
  @allowUpdateConnectors (sampleHooks true false) = true
  /\ map (map accessor)
       (collect columnsOf
          (ConnectorsView
             (sampleProps true false [] [catalogDefinition] None false false None)))
     = [ [ "name"; "dockerRepository"; "dockerImageTag"; "latestDockerImageTag" ] ].
Proof.
  split; [ reflexivity | ].
  apply (@all_columns_when_updates_allowed (sampleHooks true false)
           (sampleProps true false [] [catalogDefinition] None false false None)).
  reflexivity.
Defined.

Lemma no_version_control_without_capability_witness :
  @allowUpdateConnectors (sampleHooks false false) = false
  /\ @allowUploadCustomImage (sampleHooks false false) = false
  /\ map (map accessor)
       (collect columnsOf
          (ConnectorsView
             (sampleProps false false [customDefinition] [catalogDefinition]
                (Some true) false false None)))
     = [ [ "name"; "dockerRepository"; "dockerImageTag" ];
         [ "name"; "dockerRepository"; "dockerImageTag" ] ]
  /\ forall d,
       cellOf "latestDockerImageTag"
         (renderColumns
            (sampleProps false false [customDefinition] [catalogDefinition]
               (Some true) false false None)
            true)
         d
       = Some JSNull.
Proof.
  split; [ reflexivity | ].
  split; [ reflexivity | ].
  apply (@no_version_control_without_capability (sampleHooks false false)
           (sampleProps false false [customDefinition] [catalogDefinition]
              (Some true) false false None));
    reflexivity.
Defined.

(** ** Worked cases *)

(** Updates disallowed, custom uploads allowed: one "custom" definition
    brings the change-version column in, a list without any leaves it out. *)
Example policy_custom_present :
  @showVersionUpdateColumn (sampleHooks false true) [catalogDefinition; customDefinition]
  = true.
Proof. reflexivity. Qed.

Example policy_custom_absent :
  @showVersionUpdateColumn (sampleHooks false true) [catalogDefinition; emptyTagDefinition]
  = false.
Proof. reflexivity. Qed.

Example policy_all_flags_off :
  @showVersionUpdateColumn (sampleHooks false false) [customDefinition] = false.
Proof. reflexivity. Qed.

Example columns_of_both_tables :
  map (map accessor)
    (collect columnsOf
       (ConnectorsView
          (sampleProps false true [customDefinition] [catalogDefinition]
             None false false None)))
  = [ [ "name"; "dockerRepository"; "dockerImageTag"; "latestDockerImageTag" ];
      [ "name"; "dockerRepository"; "dockerImageTag" ] ].
Proof. reflexivity. Qed.

(** Under the same flags the cell of a catalog row stays empty although the
    column is there. *)
Example cell_of_catalog_row :
  (fun f => isNull (f (cellPropsFor "latestDockerImageTag" catalogDefinition)))
    <$> cellRenderer "latestDockerImageTag"
          (renderColumns
             (sampleProps false true [customDefinition] [] None false false None)
             true)
  = Some true.
Proof. reflexivity. Qed.

Example version_shown_latest :
  (fun f => versionOf (f (cellPropsFor "latestDockerImageTag" catalogDefinition)))
    <$> cellRenderer "latestDockerImageTag"
          (renderColumns
             (sampleProps true false [catalogDefinition] [] None false false None)
             true)
  = Some (Some "1.0.5").
Proof. reflexivity. Qed.

Example version_shown_when_latest_empty :
  (fun f => versionOf (f (cellPropsFor "latestDockerImageTag" emptyTagDefinition)))
    <$> cellRenderer "latestDockerImageTag"
          (renderColumns
             (sampleProps true false [emptyTagDefinition] [] None false false None)
             true)
  = Some (Some "0.2.9").
Proof. reflexivity. Qed.

Example version_shown_when_latest_absent :
  (fun f => versionOf (f (cellPropsFor "latestDockerImageTag" customDefinition)))
    <$> cellRenderer "latestDockerImageTag"
          (renderColumns
             (sampleProps false true [customDefinition] [] None false false None)
             true)
  = Some (Some "0.1.0").
Proof. reflexivity. Qed.

(** No used connector: one block, the available one, with the controls. *)
Example page_without_used :
  map (fun b => (blockTitle b, blockHasControls b))
    (blocks
       (ConnectorsView
          (sampleProps true true [] [catalogDefinition] (Some true) false false None)))
  = [ (Some "admin.availableSource", true) ].
Proof. reflexivity. Qed.

Example page_with_used :
  map (fun b => (blockTitle b, blockHasControls b))
    (blocks
       (ConnectorsView
          (sampleProps true true [catalogDefinition] [customDefinition]
             (Some true) false false None)))
  = [ (Some "admin.manageSource", true); (Some "admin.availableSource", false) ].
Proof. reflexivity. Qed.

(** The caller reports an error while a load is running: the button is not
    told. *)
Example error_hidden_while_loading :
  collect hasErrorOf
    (ConnectorsView
       (sampleProps true false [catalogDefinition] [] (Some true) false true
          (Some "update failed")))
  = [ false ].
Proof. reflexivity. Qed.

Example error_shown_after_loading :
  collect hasErrorOf
    (ConnectorsView
       (sampleProps true false [catalogDefinition] [] (Some true) false false
          (Some "update failed")))
  = [ true ].
Proof. reflexivity. Qed.

(** [hasNewConnectorVersion] left out by the caller and no earlier success:
    no bulk-upgrade button, although updates are allowed. *)
Example no_upgrade_button :
  occurs isUpgradeAllButton
    (ConnectorsView
       (sampleProps true true [catalogDefinition] [] None false false None))
  = false.
Proof. reflexivity. Qed.

Example no_create_connector :
  occurs isCreateConnector
    (ConnectorsView
       (sampleProps true false [customDefinition] [customDefinition]
          (Some true) true false None))
  = false.
Proof. reflexivity. Qed.
